(** * mc20.py, the CLAW minting scheduler: a shallow embedding

    The program is one Python file.  Its functions are embedded as Rocq
    functions over
    - Python values as [json] produces them ([Py.pyval]),
    - an error monad for uncaught/caught exceptions ([Py.result]),
    - explicit inputs for what the environment decides: the outcome of every
      HTTP call, the raw draws of the [random] module, the state of the
      credentials file,
    - a trace of the effects a call performs ([event]): HTTP requests, sleeps,
      file writes, thread starts and joins.

    [print] and [log] only write to the console.  They are given no event; the
    expressions they format are kept wherever evaluating them can raise
    (the post id of the success line, the [.0f] format of the sleep line, the
    [len] of the agents list, the agent's name after a registration).
    Writing to the console and opening, reading and writing the credentials
    file are taken to succeed. *)

From Stdlib Require Import ZArith List String Ascii Bool Lia DecimalString.
From Stdlib Require Import Floats.PrimFloat Numbers.Cyclic.Int63.Uint63.
Import ListNotations.
Local Open Scope string_scope.
Local Open Scope list_scope.
Local Open Scope Z_scope.
Set Warnings "-register-all".

(** ** Python values and the operations the program applies to them *)

Module Py.

(** The exception classes that the program's expressions can raise;
    [RequestException] stands for whatever [requests] raises when a call
    gets no response, and a body that is not JSON is a [ValueError]. *)
Inductive exn : Type :=
| AttributeError
| TypeError
| ValueError
| OverflowError
| KeyError
| RequestException.

Inductive result (A : Type) : Type :=
| Ok (a : A)
| Raise (e : exn).

Arguments Ok {A} a.
Arguments Raise {A} e.

Definition bind {A B : Type} (m : result A) (k : A -> result B) : result B :=
  match m with
  | Ok a => k a
  | Raise e => Raise e
  end.

(** [try: m  except Exception: h] *)
Definition try_except {A : Type} (m : result A) (h : exn -> A) : A :=
  match m with
  | Ok a => a
  | Raise e => h e
  end.

(** What [json.load] and [Response.json] return.  A character of a [PyStr] is
    one [ascii]; a dict keeps its keys in insertion order, each key once. *)
Inductive pyval : Type :=
| PyNone
| PyBool (b : bool)
| PyInt (n : Z)
| PyFloat (f : float)
| PyStr (s : string)
| PyList (l : list pyval)
| PyDict (d : list (string * pyval)).

Definition dict : Type := list (string * pyval).

(** [bool(v)] *)
Definition truthy (v : pyval) : bool :=
  match v with
  | PyNone => false
  | PyBool b => b
  | PyInt n => negb (n =? 0)
  | PyFloat f => negb (PrimFloat.eqb f 0%float)
  | PyStr s => negb (String.eqb s "")
  | PyList l => match l with [] => false | _ :: _ => true end
  | PyDict d => match d with [] => false | _ :: _ => true end
  end.

Fixpoint dict_find (d : dict) (k : string) : option pyval :=
  match d with
  | [] => None
  | (k', v) :: d' => if String.eqb k' k then Some v else dict_find d' k
  end.

(** [d.get(k, dflt)] on a dict *)
Definition dict_get (d : dict) (k : string) (dflt : pyval) : pyval :=
  match dict_find d k with
  | Some v => v
  | None => dflt
  end.

(** [d[k] = v]: the key keeps its place when present, else goes last. *)
Fixpoint dict_set (d : dict) (k : string) (v : pyval) : dict :=
  match d with
  | [] => [(k, v)]
  | (k', v') :: d' =>
      if String.eqb k' k then (k', v) :: d' else (k', v') :: dict_set d' k v
  end.

(** [d[k]] on a dict *)
Definition dict_item (d : dict) (k : string) : result pyval :=
  match dict_find d k with
  | Some v => Ok v
  | None => Raise KeyError
  end.

(** [v.get(k, dflt)] on a value of unknown type: only dicts have [get]. *)
Definition get (v : pyval) (k : string) (dflt : pyval) : result pyval :=
  match v with
  | PyDict d => Ok (dict_get d k dflt)
  | _ => Raise AttributeError
  end.

(** [v == s] for a string literal [s] *)
Definition eq_str (v : pyval) (s : string) : bool :=
  match v with
  | PyStr s' => String.eqb s' s
  | _ => false
  end.

(** [len(v)] *)
Definition len (v : pyval) : result Z :=
  match v with
  | PyStr s => Ok (Z.of_nat (String.length s))
  | PyList l => Ok (Z.of_nat (List.length l))
  | PyDict d => Ok (Z.of_nat (List.length d))
  | _ => Raise TypeError
  end.

(** [for x in v]: the elements of a list, the keys of a dict, the characters
    of a string. *)
Definition iter (v : pyval) : result (list pyval) :=
  match v with
  | PyList l => Ok l
  | PyDict d => Ok (map (fun kv => PyStr (fst kv)) d)
  | PyStr s => Ok (map (fun c => PyStr (String c "")) (list_ascii_of_string s))
  | _ => Raise TypeError
  end.

Definition int_of_bool (b : bool) : Z := if b then 1 else 0.

(** The float of a small non-negative int literal of the source. *)
Definition float_of_lit (k : Z) : float := PrimFloat.of_uint63 (Uint63.of_Z k).

(** [v > 0] *)
Definition gt_zero (v : pyval) : result bool :=
  match v with
  | PyBool b => Ok b
  | PyInt n => Ok (0 <? n)
  | PyFloat f => Ok (PrimFloat.ltb 0%float f)
  | _ => Raise TypeError
  end.

(** [v + k] for an int literal [k] *)
Definition add_lit (v : pyval) (k : Z) : result pyval :=
  match v with
  | PyBool b => Ok (PyInt (int_of_bool b + k))
  | PyInt n => Ok (PyInt (n + k))
  | PyFloat f => Ok (PyFloat (PrimFloat.add f (float_of_lit k)))
  | _ => Raise TypeError
  end.

Fixpoint str_repeat (s : string) (n : nat) : string :=
  match n with
  | O => ""
  | S n' => String.append s (str_repeat s n')
  end.

(** [v * k] for an int literal [k]: numbers multiply, sequences repeat. *)
Definition mul_lit (v : pyval) (k : Z) : result pyval :=
  match v with
  | PyBool b => Ok (PyInt (int_of_bool b * k))
  | PyInt n => Ok (PyInt (n * k))
  | PyFloat f => Ok (PyFloat (PrimFloat.mul f (float_of_lit k)))
  | PyStr s => Ok (PyStr (str_repeat s (Z.to_nat k)))
  | PyList l => Ok (PyList (List.concat (List.repeat l (Z.to_nat k))))
  | _ => Raise TypeError
  end.

(** [f"{v:.0f}"]: an int is converted to a float first, which overflows from
    [2^1024 - 2^970] on. *)
Definition format_f (v : pyval) : result unit :=
  match v with
  | PyBool _ => Ok tt
  | PyInt n => if Z.abs n <? 2 ^ 1024 - 2 ^ 970 then Ok tt else Raise OverflowError
  | PyFloat _ => Ok tt
  | PyStr _ => Raise ValueError
  | _ => Raise TypeError
  end.

(** [time.sleep(v)] as CPython checks its argument: the duration is converted
    to a signed 64-bit count of nanoseconds (OverflowError when it does not
    fit, ValueError for NaN), and a negative duration is a ValueError.  Near
    [2^63] floats are whole numbers, so rounding the nanoseconds does not
    move a float across the bound. *)
Definition sleep_arg (v : pyval) : result unit :=
  match v with
  | PyBool _ => Ok tt
  | PyInt n =>
      if (n * 1000000000 <? - 2 ^ 63) || (2 ^ 63 - 1 <? n * 1000000000)
      then Raise OverflowError
      else if n <? 0 then Raise ValueError else Ok tt
  | PyFloat f =>
      if negb (PrimFloat.eqb f f) then Raise ValueError
      else
        let ns := PrimFloat.mul f 1000000000%float in
        if PrimFloat.ltb ns (-9223372036854775808)%float
           || PrimFloat.leb 9223372036854775808%float ns
        then Raise OverflowError
        else if PrimFloat.ltb f 0%float then Raise ValueError else Ok tt
  | _ => Raise TypeError
  end.

End Py.

Import Py.

Notation "x <- m ;; k" := (bind m (fun x => k))
  (at level 61, m at next level, right associativity).

(** ** Configuration *)

Definition AGENTS_FILE : string := "copy.json".
Definition THREADS_PER_AGENT : nat := 1.
Definition BASE_URL : string := "https://www.moltbook.com/api/v1".
Definition INDEXER_URL : string := "https://mbc20.xyz/api".
Definition SUBMOLT : string := "mbc-20".

(** ** The environment: HTTP, randomness, effects *)

(** An f-string: literal text and [{v}] fields, left unrendered. *)
Inductive frag : Type :=
| Lit (s : string)
| Fmt (v : pyval).

Definition fstring : Type := list frag.

(** A value of a JSON payload: a Python value, or the text of an f-string. *)
Inductive field : Type :=
| Plain (v : pyval)
| Text (t : fstring).

Inductive verb : Type := GET | POST.

Record request : Type := mkRequest {
  req_verb : verb;
  req_url : fstring;
  req_headers : list (string * fstring);
  req_json : list (string * field);
  req_timeout : option Z
}.

(** A response: [r.status_code], and what [r.json()] returns ([None] when the
    body is not JSON and [r.json()] raises). *)
Record response : Type := mkResponse {
  status_code : Z;
  body : option pyval
}.

(** What one call of [requests.post] / [requests.get] does: raise, or return. *)
Inductive http_result : Type :=
| Failed
| Responded (r : response).

Definition sent (h : http_result) : result response :=
  match h with
  | Failed => Raise RequestException
  | Responded r => Ok r
  end.

Definition json_of (r : response) : result pyval :=
  match body r with
  | Some v => Ok v
  | None => Raise ValueError
  end.

Inductive thread_target : Type :=
| Recovery (agents : list dict)
| AgentLoop (agent : dict).

Inductive event : Type :=
| EvRequest (q : request)
| EvSleep (seconds : pyval)
| EvWrite (path : string) (content : pyval)
| EvThread (target : thread_target) (daemon : bool)
| EvWorkerStart (worker_id : nat)
| EvWorkerJoin (worker_id : nat).

(** A loop thread is still looping, or an exception left it. *)
Inductive thread_state : Type :=
| Looping
| Died (e : exn).

(** The [random] module, each call fed by one raw draw [x]. *)
Definition randint (a b : Z) (x : Z) : Z := a + x mod (b - a + 1).

Definition choice {A : Type} (dflt : A) (l : list A) (x : Z) : A :=
  nth (Z.to_nat (x mod Z.of_nat (List.length l))) l dflt.

Definition choices {A : Type} (dflt : A) (population : list A) (k : nat)
    (draw : nat -> Z) : list A :=
  map (fun i => choice dflt population (draw i)) (seq 0 k).

Definition ascii_letters : string :=
  "abcdefghijklmnopqrstuvwxyzABCDEFGHIJKLMNOPQRSTUVWXYZ".
Definition digits : string := "0123456789".

Definition generate_nonce (length : nat) (draw : nat -> Z) : string :=
  string_of_list_ascii
    (choices " "%char (list_ascii_of_string (ascii_letters ++ digits)%string)
       length draw).

(** ** register_agent *)

Definition register_request (agent_name : pyval) : request :=
  mkRequest POST [Lit BASE_URL; Lit "/agents/register"] []
    [("name", Plain agent_name);
     ("description", Text [Lit "AI Agent "; Fmt agent_name; Lit " for CLAW minting"])]
    (Some 15).

(** The call and the value returned.  The whole body is under
    [try ... except Exception], whose handler returns [None]. *)
Definition register_agent (agent_name : pyval) (h : http_result)
    : list event * pyval :=
  ([EvRequest (register_request agent_name)],
   try_except
     (r <- sent h ;;
      if (status_code r =? 200) || (status_code r =? 201) then
        data <- json_of r ;;
        agent_data <- get data "agent" (PyDict []) ;;
        api_key <- get agent_data "api_key" PyNone ;;
        claim_url <- get agent_data "claim_url" PyNone ;;
        verification_code <- get agent_data "verification_code" PyNone ;;
        Ok api_key
      else Ok PyNone)
     (fun _ => PyNone)).

(** ** recovery_loop *)

Definition index_request (name : pyval) : request :=
  mkRequest GET [Lit INDEXER_URL; Lit "/index-agent?name="; Fmt name] [] []
    (Some 10).

(** The body of [for agent in agents]: the request and the reading of its
    answer are under [try ... except Exception], then [time.sleep(10)]. *)
Definition poll_agent (agent : dict) (h : http_result) : list event :=
  let name := dict_get agent "name" PyNone in
  let logged :=
    try_except
      (r <- sent h ;;
       if status_code r =? 200 then
         data <- json_of r ;;
         ok <- get data "success" PyNone ;;
         if truthy ok then
           indexed <- get data "indexed" (PyInt 0) ;;
           total <- get data "totalPosts" (PyInt 0) ;;
           Ok tt
         else Ok tt
       else Ok tt)
      (fun _ => tt) in
  match logged with
  | tt => [EvRequest (index_request name); EvSleep (PyInt 10)]
  end.

Fixpoint poll_agents (agents : list dict) (net : nat -> http_result)
    : list event :=
  match agents with
  | [] => []
  | agent :: rest => poll_agent agent (net O) ++ poll_agents rest (fun i => net (S i))
  end.

(** One turn of [while True]: every agent, then [time.sleep(300)]. *)
Definition recovery_cycle (agents : list dict) (net : nat -> http_result)
    : list event :=
  poll_agents agents net ++ [EvSleep (PyInt 300)].

(** The first [length nets] turns of the loop, turn [c] answered by the
    [c]-th element of [nets]. *)
Fixpoint recovery_loop (agents : list dict) (nets : list (nat -> http_result))
    : list event * thread_state :=
  match nets with
  | [] => ([], Looping)
  | net :: rest =>
      let (evs, st) := recovery_loop agents rest in
      (recovery_cycle agents net ++ evs, st)
  end.

(** ** run_agent_loop *)

(** What one worker draws and receives. *)
Record worker_input : Type := mkWorkerInput {
  nonce_draw : nat -> Z;
  update_draw : Z;
  fluff_draw : Z;
  post_result : http_result
}.

Definition quoted (s : string) : string :=
  (String "034"%char s ++ String "034"%char "")%string.

Definition mint_content : string :=
  ("{" ++ quoted "p" ++ ":" ++ quoted "mbc-20" ++ ","
       ++ quoted "op" ++ ":" ++ quoted "mint" ++ ","
       ++ quoted "tick" ++ ":" ++ quoted "CLAW" ++ ","
       ++ quoted "amt" ++ ":" ++ quoted "100" ++ "}")%string.

Definition fluff_options (update : Z) : list string :=
  [ "Exploring the CLAW ecosystem today! ";
    "Another step in decentralized minting: ";
    ("Agent update #" ++ NilZero.string_of_int (Z.to_int update) ++ ": ")%string;
    "Reflecting on token utility... ";
    "To the moon with mbc20! ";
    "Claw is the law! ";
    "Building on Moltbook... " ].

Definition mint_request (api_key : pyval) (w : worker_input) : request :=
  let nonce := generate_nonce 8 (nonce_draw w) in
  let random_fluff :=
    choice "" (fluff_options (randint 1 999 (update_draw w))) (fluff_draw w) in
  let final_content :=
    (mint_content ++ " " ++ random_fluff ++ " mbc20.xyz " ++ nonce)%string in
  let title_prefix := "Mint CLAW" in
  mkRequest POST [Lit BASE_URL; Lit "/posts"]
    [("Authorization", [Lit "Bearer "; Fmt api_key]);
     ("Content-Type", [Lit "application/json"])]
    [("title", Plain (PyStr (title_prefix ++ " " ++ nonce)%string));
     ("content", Plain (PyStr final_content));
     ("submolt", Plain (PyStr SUBMOLT));
     ("is_draft", Plain (PyBool false))]
    None.

(** A worker: the request it sends and what it appends to [req_results].
    [agent_barrier] has [THREADS_PER_AGENT] parties, every turn starts that
    many workers and nothing aborts or resets it, so [wait()] returns in each
    of them.  The request and [r.json()] are under [try ... except Exception]:
    a failure appends nothing. *)
Definition attack_thread (api_key : pyval) (w : worker_input)
    : list event * list (Z * pyval) :=
  ([EvRequest (mint_request api_key w)],
   try_except
     (r <- sent (post_result w) ;;
      data <- json_of r ;;
      Ok [(status_code r, data)])
     (fun _ => [])).

(** Start the workers, let them run, join them.  Past the barrier the workers
    run in the order of their ids here; with one worker there is no other. *)
Definition run_workers (api_key : pyval) (inp : nat -> worker_input)
    : list event * list (Z * pyval) :=
  let ids := seq 0 THREADS_PER_AGENT in
  let runs := map (fun i => attack_thread api_key (inp i)) ids in
  (map EvWorkerStart ids ++ flat_map fst runs ++ map EvWorkerJoin ids,
   flat_map snd runs).

(** The three variables that the loop over [req_results] updates. *)
Record tally : Type := mkTally {
  success_count : Z;
  retry_minutes : pyval;
  got_429 : bool
}.

Definition tally_entry (t : tally) (entry : Z * pyval) : result tally :=
  let (status, data) := entry in
  hit <- (if (status =? 200) || (status =? 201) then
            s <- get data "success" PyNone ;;
            if truthy s then Ok true
            else p <- get data "post" PyNone ;; Ok (truthy p)
          else Ok false) ;;
  if hit then
    post <- get data "post" (PyDict []) ;;
    post_id <- get post "id" PyNone ;;
    Ok (mkTally (success_count t + 1) (retry_minutes t) (got_429 t))
  else if status =? 429 then
    r_min <- get data "retry_after_minutes" PyNone ;;
    Ok (mkTally (success_count t)
          (if truthy r_min then r_min else retry_minutes t) true)
  else Ok t.

Fixpoint tally_all (t : tally) (req_results : list (Z * pyval)) : result tally :=
  match req_results with
  | [] => Ok t
  | entry :: rest => t' <- tally_entry t entry ;; tally_all t' rest
  end.

(** The search for [retry_after_seconds]: the first truthy one, else [0]. *)
Fixpoint find_retry_seconds (req_results : list (Z * pyval)) : result pyval :=
  match req_results with
  | [] => Ok (PyInt 0)
  | (_, data) :: rest =>
      v <- get data "retry_after_seconds" PyNone ;;
      if truthy v then get data "retry_after_seconds" PyNone
      else find_retry_seconds rest
  end.

Inductive outcome : Type :=
| Success
| RateLimited
| UnknownError.

(** The [if success_count > 0 / elif got_429 / else] that sets [sleep_time]. *)
Definition next_sleep (req_results : list (Z * pyval)) (t : tally) (draw : Z)
    : result (outcome * pyval) :=
  if 0 <? success_count t then
    Ok (Success, PyInt (2 * 60 * 60 + randint 60 300 draw))
  else if got_429 t then
    retry_seconds <- find_retry_seconds req_results ;;
    positive <- gt_zero retry_seconds ;;
    sleep_time <- (if positive then add_lit retry_seconds 5
                   else m <- mul_lit (retry_minutes t) 60 ;; add_lit m 30) ;;
    Ok (RateLimited, sleep_time)
  else Ok (UnknownError, PyInt 60).

(** From [req_results] to the outcome and [sleep_time] of the turn. *)
Definition attempt (req_results : list (Z * pyval)) (draw : Z)
    : result (outcome * pyval) :=
  t <- tally_all (mkTally 0 (PyInt (2 * 60)) false) req_results ;;
  next_sleep req_results t draw.

(** The rate-limited arm logs [f"Sleeping for {sleep_time:.0f} seconds..."]
    before the loop reaches [time.sleep(sleep_time)]. *)
Definition go_to_sleep (o : outcome) (sleep_time : pyval) : result unit :=
  _ <- (match o with RateLimited => format_f sleep_time | _ => Ok tt end) ;;
  sleep_arg sleep_time.

(** What one turn draws and receives. *)
Record iter_input : Type := mkIterInput {
  workers_in : nat -> worker_input;
  sleep_draw : Z
}.

(** One turn of [while True]. *)
Definition iteration (api_key : pyval) (inp : iter_input)
    : list event * result unit :=
  let (evs, req_results) := run_workers api_key (workers_in inp) in
  match attempt req_results (sleep_draw inp) with
  | Raise e => (evs, Raise e)
  | Ok (o, sleep_time) =>
      match go_to_sleep o sleep_time with
      | Raise e => (evs, Raise e)
      | Ok _ => (evs ++ [EvSleep sleep_time], Ok tt)
      end
  end.

Fixpoint iterations (api_key : pyval) (inputs : list iter_input)
    : list event * thread_state :=
  match inputs with
  | [] => ([], Looping)
  | inp :: rest =>
      match iteration api_key inp with
      | (evs, Raise e) => (evs, Died e)
      | (evs, Ok _) =>
          let (evs', st) := iterations api_key rest in (evs ++ evs', st)
      end
  end.

(** The first [length inputs] turns of the loop (fewer when an exception
    leaves it), turn [k] drawing and receiving the [k]-th element. *)
Definition run_agent_loop (agent_config : dict) (inputs : list iter_input)
    : list event * thread_state :=
  let name := dict_get agent_config "name" PyNone in
  let api_key := dict_get agent_config "api_key" PyNone in
  iterations api_key inputs.

(** ** main *)

(** The credentials file when [main] starts: absent, or present with what
    [json.load] makes of it ([None] when it is not JSON and the load raises). *)
Inductive file_state : Type :=
| Missing
| Present (parsed : option pyval).

(** How [main] ends: it returns, an exception leaves it, or it has started
    the threads and stays in [while True: time.sleep(1)]. *)
Inductive exit : Type :=
| Returned
| Crashed (e : exn)
| Serving.

Definition template : pyval :=
  PyList [PyDict [("name", PyStr "YourAgentName"); ("api_key", PyStr "")]].

(** [not api_key or api_key == "key" or len(api_key) < 10] *)
Definition lacks_key (api_key : pyval) : result bool :=
  if negb (truthy api_key) then Ok true
  else if eq_str api_key "key" then Ok true
  else n <- len api_key ;; Ok (n <? 10).

(** What the registration loop has built: the elements of [agents] as the
    loop leaves them, [valid_agents], and [updated]. *)
Record registration : Type := mkRegistration {
  agents_out : list pyval;
  valid_agents : list dict;
  updated : bool
}.

(** The body of [for agent in agents], for one element: the element as the
    body leaves it, whether it joins [valid_agents], whether [updated] is
    set.  [agent.get] needs a dict, and the line printed after a
    registration reads [agent['name']]. *)
Definition check_agent (agent : pyval) (h : http_result)
    : list event * result (pyval * option dict * bool) :=
  match agent with
  | PyDict d =>
      let name := dict_get d "name" PyNone in
      let api_key := dict_get d "api_key" PyNone in
      if eq_str name "name" || eq_str name "YourAgentName" then
        ([], Ok (agent, None, false))
      else
        match lacks_key api_key with
        | Raise e => ([], Raise e)
        | Ok true =>
            let (evs, new_key) := register_agent name h in
            if truthy new_key then
              let d' := dict_set d "api_key" new_key in
              match dict_item d' "name" with
              | Ok _ => (evs, Ok (PyDict d', Some d', true))
              | Raise e => (evs, Raise e)
              end
            else (evs, Ok (agent, None, false))
        | Ok false => ([], Ok (agent, Some d, false))
        end
  | _ => ([], Raise AttributeError)
  end.

(** The loop over the elements, the [i]-th registration call answered by
    [net i] where [i] is the position of the agent. *)
Fixpoint registration_loop (agents : list pyval) (net : nat -> http_result)
    : list event * result registration :=
  match agents with
  | [] => ([], Ok (mkRegistration [] [] false))
  | agent :: rest =>
      match check_agent agent (net O) with
      | (evs, Raise e) => (evs, Raise e)
      | (evs, Ok (agent', keep, upd)) =>
          match registration_loop rest (fun i => net (S i)) with
          | (evs', Raise e) => (evs ++ evs', Raise e)
          | (evs', Ok r) =>
              (evs ++ evs',
               Ok (mkRegistration (agent' :: agents_out r)
                     (match keep with
                      | Some d => d :: valid_agents r
                      | None => valid_agents r
                      end)
                     (upd || updated r)))
          end
      end
  end.

(** [agents] after the loop: only a list has elements the loop can change. *)
Definition rebuilt (agents : pyval) (elements : list pyval) : pyval :=
  match agents with
  | PyList _ => PyList elements
  | _ => agents
  end.

Definition start_threads (valid : list dict) : list event :=
  EvThread (Recovery valid) true
    :: map (fun agent => EvThread (AgentLoop agent) true) valid.

Definition main (file : file_state) (net : nat -> http_result)
    : list event * exit :=
  match file with
  | Missing => ([EvWrite AGENTS_FILE template], Returned)
  | Present None => ([], Crashed ValueError)
  | Present (Some agents) =>
      match (n <- len agents ;; iter agents) with
      | Raise e => ([], Crashed e)
      | Ok elements =>
          match registration_loop elements net with
          | (evs, Raise e) => (evs, Crashed e)
          | (evs, Ok r) =>
              let save :=
                if updated r
                then [EvWrite AGENTS_FILE (rebuilt agents (agents_out r))]
                else [] in
              match valid_agents r with
              | [] => (evs ++ save, Returned)
              | _ :: _ => (evs ++ save ++ start_threads (valid_agents r), Serving)
              end
          end
      end
  end.

(** ** Reading traces *)

Definition is_request (e : event) : bool :=
  match e with EvRequest _ => true | _ => false end.

Definition is_write (e : event) : bool :=
  match e with EvWrite _ _ => true | _ => false end.

Definition is_thread (e : event) : bool :=
  match e with EvThread _ _ => true | _ => false end.

Definition requests (tr : list event) : list event := filter is_request tr.
Definition writes (tr : list event) : list event := filter is_write tr.
Definition threads (tr : list event) : list event := filter is_thread tr.

(** ** Notions the statements use *)

(** *** Hints, outcomes and example answers of a turn *)



(** The success line can read the post id: [post] is absent or a dict. *)
Definition post_readable (d : dict) : Prop :=
  exists p, dict_get d "post" (PyDict []) = PyDict p.

(** The arm of [if success_count > 0 / elif got_429 / else] a tally selects. *)
Definition outcome_of (t : tally) : outcome :=
  if 0 <? success_count t then Success
  else if got_429 t then RateLimited
  else UnknownError.

Definition answer (status : Z) (data : pyval) : http_result :=
  Responded (mkResponse status (Some data)).

(** A turn whose single worker gets the answer [h]. *)
Definition turn_with (h : http_result) : iter_input :=
  mkIterInput (fun _ => mkWorkerInput (fun _ => 0) 0 0 h) 0.

(** A 200 whose body says [success] and gives the post as its id. *)
Definition post_as_id : pyval :=
  PyDict [("success", PyBool true); ("post", PyStr "abc123")].

(** *** The trace of the recovery loop *)

(** The index request for one agent. *)
Definition poll (agent : dict) : event :=
  EvRequest (index_request (dict_get agent "name" PyNone)).

(** What the loop does for each agent of a list, whatever it is answered. *)
Definition steps (agents : list dict) : list event :=
  flat_map (fun agent => [poll agent; EvSleep (PyInt 10)]) agents.

(** The seconds slept along a trace of whole-second sleeps. *)
Fixpoint slept (tr : list event) : Z :=
  match tr with
  | [] => 0
  | EvSleep (PyInt n) :: tr' => n + slept tr'
  | _ :: tr' => slept tr'
  end.


(** *** The trace of main *)

Definition only_requests (tr : list event) : Prop := forallb is_request tr = true.

Definition save_file (content : pyval) (r : registration) : list event :=
  if updated r then [EvWrite AGENTS_FILE (rebuilt content (agents_out r))] else [].

(** A write goes to [AGENTS_FILE]. *)
Definition to_agents_file (e : event) : Prop :=
  match e with
  | EvWrite path _ => path = AGENTS_FILE
  | _ => True
  end.

(** The loop registers this element and the registration returns a key. *)
Definition receives_key (agent : pyval) (h : http_result) : Prop :=
  exists d,
    agent = PyDict d
    /\ eq_str (dict_get d "name" PyNone) "name"
       || eq_str (dict_get d "name" PyNone) "YourAgentName" = false
    /\ lacks_key (dict_get d "api_key" PyNone) = Ok true
    /\ truthy (snd (register_agent (dict_get d "name" PyNone) h)) = true.

(** Two agents on file, the second without a key, and its registration. *)
Definition alice : dict :=
  [("name", PyStr "alice"); ("api_key", PyStr "moltbook_sk_alice_0001")].
Definition bob : dict := [("name", PyStr "bob"); ("api_key", PyStr "")].
Definition bob_registered : dict :=
  [("name", PyStr "bob"); ("api_key", PyStr "moltbook_sk_bob_0002")].
Definition registers_bob : nat -> http_result :=
  fun _ => answer 201 (PyDict [("agent", PyDict [("api_key", PyStr "moltbook_sk_bob_0002")])]).

(** *** Several agent loops side by side *)










(** *** Further readings of traces and of the credentials file *)

Definition is_sleep (e : event) : bool :=
  match e with EvSleep _ => true | _ => false end.

Definition sleeps (tr : list event) : list event := filter is_sleep tr.

(** The characters [generate_nonce] draws from. *)
Definition alphabet : list ascii :=
  list_ascii_of_string (ascii_letters ++ digits)%string.

(** A request of [register_agent]. *)
Definition registration_call (e : event) : Prop :=
  exists agent_name, e = EvRequest (register_request agent_name).

(** [name == "name" or name == "YourAgentName"] *)
Definition placeholder (d : dict) : bool :=
  eq_str (dict_get d "name" PyNone) "name"
  || eq_str (dict_get d "name" PyNone) "YourAgentName".

(** An entry the registration loop passes over without a call: a
    placeholder, or an agent whose key passes the check. *)
Definition settled (agent : pyval) : Prop :=
  exists d,
    agent = PyDict d
    /\ (placeholder d = true \/ lacks_key (dict_get d "api_key" PyNone) = Ok false).

Definition is_dict (v : pyval) : bool :=
  match v with PyDict _ => true | _ => false end.


(** The condition of the success arm on an object body:
    [(status == 200 or status == 201) and (data.get("success") or data.get("post"))]. *)
Definition is_success (status : Z) (d : dict) : bool :=
  ((status =? 200) || (status =? 201))
  && (truthy (dict_get d "success" PyNone) || truthy (dict_get d "post" PyNone)).

(** * Proofs *)

(** ** The sleep computed by a turn of run_agent_loop *)

Lemma randint_range (a b x : Z) : a <= b -> a <= randint a b x <= b.
Proof.
  intros Hab. unfold randint.
  assert (0 <= x mod (b - a + 1) < b - a + 1) by (apply Z.mod_pos_bound; lia).
  lia.
Qed.

Ltac bind_cases :=
  repeat match goal with
         | H : context [bind ?m _] |- _ =>
             let E := fresh "E" in destruct m eqn:E; cbn [bind] in H
         | H : context [if ?b then _ else _] |- _ =>
             let E := fresh "E" in destruct b eqn:E
         | H : Ok _ = Ok _ |- _ => inversion H; subst; clear H
         | H : Raise _ = Ok _ |- _ => discriminate H
         end.










Lemma tally_entry_hit t status d :
  (status =? 200) || (status =? 201) = true ->
  truthy (dict_get d "success" PyNone) = true
    \/ truthy (dict_get d "post" PyNone) = true ->
  post_readable d ->
  tally_entry t (status, PyDict d)
  = Ok (mkTally (success_count t + 1) (retry_minutes t) (got_429 t)).
Proof.
  intros Hs Hhit [p Hp]. unfold tally_entry. rewrite Hs. cbn [get bind].
  assert (Hh : (if truthy (dict_get d "success" PyNone) then Ok true
                else Ok (truthy (dict_get d "post" PyNone))) = Ok true).
  { destruct Hhit as [H | H]; rewrite H; [reflexivity |].
    destruct (truthy (dict_get d "success" PyNone)); reflexivity. }
  rewrite Hh. cbn [bind]. rewrite Hp. reflexivity.
Qed.



(** ** Responses that the loop of run_agent_loop does not survive *)

(** C2: the code at responses for which it reaches no outcome.  The first
    meets the stated condition of a success (status 200, truthy [success]
    and [post]), and the success line's [data.get('post', {}).get('id')]
    raises on it; so does a [post] that is null; a body that is a JSON array
    raises at the first [data.get] under status 200 and under status 429. *)
Theorem success_condition_without_outcome :
  forall draw,
    truthy (dict_get [("success", PyBool true); ("post", PyStr "abc123")]
              "success" PyNone) = true
    /\ attempt [(200, post_as_id)] draw = Raise AttributeError
    /\ attempt [(201, PyDict [("success", PyBool true); ("post", PyNone)])] draw
       = Raise AttributeError
    /\ attempt [(200, PyList [])] draw = Raise AttributeError
    /\ attempt [(429, PyList [])] draw = Raise AttributeError
    /\ snd (iteration (PyStr "moltbook_sk_0123456789")
              (turn_with (answer 200 post_as_id)))
       = Raise AttributeError.
Proof. intros draw. repeat apply conj; reflexivity. Qed.

(** C6: the agent loop at a first answer that ends it.  After the 200 with
    [post_as_id] the thread has sent one request and is dead: it does not
    sleep and the next turn, whatever it would receive, never starts.  A 429
    with a string for [retry_after_seconds] ends it at [retry_seconds > 0],
    and a 429 with a negative [retry_after_minutes] at [time.sleep]. *)
Theorem agent_loop_can_die :
  forall cfg next,
    run_agent_loop cfg [turn_with (answer 200 post_as_id); next]
    = ([EvWorkerStart 0;
        EvRequest (mint_request (dict_get cfg "api_key" PyNone)
                     (workers_in (turn_with (answer 200 post_as_id)) O));
        EvWorkerJoin 0],
       Died AttributeError)
    /\ snd (run_agent_loop cfg
              [turn_with (answer 429 (PyDict [("retry_after_seconds", PyStr "30")]));
               next])
       = Died TypeError
    /\ snd (run_agent_loop cfg
              [turn_with (answer 429 (PyDict [("retry_after_minutes", PyInt (-1))]));
               next])
       = Died ValueError.
Proof. intros cfg next. repeat apply conj; reflexivity. Qed.

(** ** One request per turn *)

Lemma attack_thread_results api_key w :
  (List.length (snd (attack_thread api_key w)) <= 1)%nat.
Proof.
  unfold attack_thread. cbn [snd].
  destruct (post_result w) as [| r]; cbn; [lia |].
  unfold json_of. destruct (body r); cbn; lia.
Qed.

Lemma run_workers_eq api_key inp :
  run_workers api_key inp
  = ([EvWorkerStart 0; EvRequest (mint_request api_key (inp O)); EvWorkerJoin 0],
     snd (attack_thread api_key (inp O))).
Proof. unfold run_workers. cbn. rewrite app_nil_r. reflexivity. Qed.

Lemma iteration_trace api_key inp :
  exists tail,
    fst (iteration api_key inp)
    = [EvWorkerStart 0; EvRequest (mint_request api_key (workers_in inp O));
       EvWorkerJoin 0] ++ tail
    /\ (tail = [] \/ exists v, tail = [EvSleep v]).
Proof.
  unfold iteration. rewrite run_workers_eq.
  destruct (attempt _ _) as [[o v] | e].
  - destruct (go_to_sleep o v).
    + exists [EvSleep v]. split; [reflexivity | right; eauto].
    + exists []. split; [reflexivity | left; reflexivity].
  - exists []. split; [reflexivity | left; reflexivity].
Qed.

(** C3: a turn of run_agent_loop starts [THREADS_PER_AGENT = 1] worker, every
    worker sends exactly one request, a POST to the posts endpoint, and
    appends at most one result; the worker is joined before anything else
    happens in the turn, whose only request is the worker's. *)
Theorem one_mint_request_per_turn :
  forall api_key inp,
    THREADS_PER_AGENT = 1%nat
    /\ (forall w, fst (attack_thread api_key w) = [EvRequest (mint_request api_key w)]
                  /\ req_verb (mint_request api_key w) = POST
                  /\ req_url (mint_request api_key w) = [Lit BASE_URL; Lit "/posts"])
    /\ fst (run_workers api_key (workers_in inp))
       = [EvWorkerStart 0; EvRequest (mint_request api_key (workers_in inp O));
          EvWorkerJoin 0]
    /\ (List.length (snd (run_workers api_key (workers_in inp))) <= 1)%nat
    /\ (exists tail,
           fst (iteration api_key inp)
           = fst (run_workers api_key (workers_in inp)) ++ tail
           /\ (tail = [] \/ exists v, tail = [EvSleep v]))
    /\ requests (fst (iteration api_key inp))
       = [EvRequest (mint_request api_key (workers_in inp O))].
Proof.
  intros api_key inp. repeat apply conj.
  - reflexivity.
  - intros w. repeat apply conj; reflexivity.
  - rewrite run_workers_eq. reflexivity.
  - rewrite run_workers_eq. apply attack_thread_results.
  - rewrite run_workers_eq. apply iteration_trace.
  - destruct (iteration_trace api_key inp) as (tail & -> & [-> | (v & ->)]);
      reflexivity.
Qed.

(** ** The cadence of recovery_loop *)

Lemma poll_agent_eq agent h : poll_agent agent h = [poll agent; EvSleep (PyInt 10)].
Proof. unfold poll_agent. destruct (try_except _ _). reflexivity. Qed.

Lemma poll_agents_eq agents : forall net, poll_agents agents net = steps agents.
Proof.
  induction agents as [| agent rest IH]; intros net; [reflexivity |].
  cbn [poll_agents]. rewrite poll_agent_eq, IH. reflexivity.
Qed.

Lemma slept_app tr1 tr2 : slept (tr1 ++ tr2) = slept tr1 + slept tr2.
Proof.
  induction tr1 as [| e tr1 IH]; [reflexivity |].
  cbn [app slept]. destruct e as [| [] | | | |]; rewrite IH; lia.
Qed.

Lemma requests_app tr1 tr2 : requests (tr1 ++ tr2) = requests tr1 ++ requests tr2.
Proof. apply filter_app. Qed.

Lemma requests_steps agents : requests (steps agents) = map poll agents.
Proof.
  induction agents as [| agent rest IH]; [reflexivity |].
  cbn. f_equal. exact IH.
Qed.

Lemma slept_steps agents : slept (steps agents) = 10 * Z.of_nat (List.length agents).
Proof.
  induction agents as [| agent rest IH]; [reflexivity |].
  change (slept (steps (agent :: rest))) with (10 + slept (steps rest)).
  rewrite IH. cbn [List.length]. lia.
Qed.


(** ** main: threads and files *)

Lemma only_requests_app tr1 tr2 :
  only_requests tr1 -> only_requests tr2 -> only_requests (tr1 ++ tr2).
Proof.
  unfold only_requests. intros H1 H2. rewrite forallb_app, H1, H2. reflexivity.
Qed.

Lemma only_requests_quiet tr :
  only_requests tr -> writes tr = [] /\ threads tr = [].
Proof.
  unfold only_requests.
  induction tr as [| e tr IH]; [intros _; split; reflexivity |].
  cbn [forallb]. intros H. apply andb_prop in H as [He Htr].
  destruct (IH Htr) as [Hw Ht], e; try discriminate He. cbn. auto.
Qed.

Lemma check_agent_requests agent h : only_requests (fst (check_agent agent h)).
Proof.
  unfold check_agent.
  destruct agent as [| | | | | | d]; try reflexivity.
  destruct (_ || _); [reflexivity |].
  destruct (lacks_key _) as [[|] | e]; try reflexivity.
  destruct (register_agent _ h) as [evs new_key] eqn:E.
  assert (Hevs : only_requests evs).
  { unfold register_agent in E. inversion E. reflexivity. }
  destruct (truthy new_key); [| exact Hevs].
  destruct (dict_item _ _); exact Hevs.
Qed.

Lemma registration_loop_requests elements :
  forall net, only_requests (fst (registration_loop elements net)).
Proof.
  induction elements as [| agent rest IH]; intros net; [reflexivity |].
  cbn [registration_loop].
  pose proof (check_agent_requests agent (net O)) as Hc.
  pose proof (IH (fun i => net (S i))) as Hr.
  destruct (check_agent agent (net O)) as [evs [[[agent' keep] upd] | e]];
    [| exact Hc].
  destruct (registration_loop rest _) as [evs' [r | e]];
    apply only_requests_app; assumption.
Qed.

Lemma threads_app tr1 tr2 : threads (tr1 ++ tr2) = threads tr1 ++ threads tr2.
Proof. apply filter_app. Qed.

Lemma writes_app tr1 tr2 : writes (tr1 ++ tr2) = writes tr1 ++ writes tr2.
Proof. apply filter_app. Qed.

Lemma start_threads_quiet valid :
  threads (start_threads valid) = start_threads valid
  /\ writes (start_threads valid) = [].
Proof.
  unfold start_threads. cbn [threads writes filter is_thread is_write].
  induction valid as [| agent rest [IHt IHw]]; [split; reflexivity |].
  cbn [map filter is_thread is_write]. split; [| exact IHw].
  f_equal. injection IHt as IHt. f_equal. exact IHt.
Qed.

Lemma main_present content net elements evs r :
  (n <- len content ;; iter content) = Ok elements ->
  registration_loop elements net = (evs, Ok r) ->
  main (Present (Some content)) net
  = match valid_agents r with
    | [] => (evs ++ save_file content r, Returned)
    | _ :: _ => (evs ++ save_file content r ++ start_threads (valid_agents r), Serving)
    end.
Proof. intros H1 H2. unfold main. rewrite H1, H2. reflexivity. Qed.

(** C5: when the registration phase leaves a non-empty [valid_agents], main
    goes on to serve, and the threads it has started are the recovery thread
    over [valid_agents] and one agent-loop thread per valid agent, in this
    order, all daemons; with no valid agent it returns having started none. *)
Theorem main_starts_threads content net elements evs r :
  (n <- len content ;; iter content) = Ok elements ->
  registration_loop elements net = (evs, Ok r) ->
  (valid_agents r <> [] ->
   snd (main (Present (Some content)) net) = Serving
   /\ threads (fst (main (Present (Some content)) net))
      = EvThread (Recovery (valid_agents r)) true
          :: map (fun agent => EvThread (AgentLoop agent) true) (valid_agents r)
   /\ List.length (threads (fst (main (Present (Some content)) net)))
      = S (List.length (valid_agents r)))
  /\ (valid_agents r = [] ->
      snd (main (Present (Some content)) net) = Returned
      /\ threads (fst (main (Present (Some content)) net)) = []).
Proof.
  intros H1 H2. rewrite (main_present _ _ _ _ _ H1 H2).
  assert (Hevs : threads evs = []).
  { pose proof (registration_loop_requests elements net) as H.
    rewrite H2 in H. now apply only_requests_quiet in H. }
  assert (Hsave : threads (save_file content r) = []).
  { unfold save_file. destruct (updated r); reflexivity. }
  split.
  - intros Hv. destruct (valid_agents r) as [| a valid] eqn:E; [contradiction |].
    cbn [fst snd]. rewrite !threads_app, Hevs, Hsave.
    destruct (start_threads_quiet (a :: valid)) as [-> _]. cbn [app].
    repeat apply conj; try reflexivity.
    unfold start_threads. cbn [List.length]. now rewrite length_map.
  - intros Hv. rewrite Hv. cbn [fst snd]. rewrite threads_app, Hevs, Hsave.
    split; reflexivity.
Qed.

Lemma main_starts_threads_example :
  main (Present (Some (PyList [PyDict alice; PyDict bob]))) registers_bob
  = ([EvRequest (register_request (PyStr "bob"));
      EvWrite AGENTS_FILE (PyList [PyDict alice; PyDict bob_registered]);
      EvThread (Recovery [alice; bob_registered]) true;
      EvThread (AgentLoop alice) true;
      EvThread (AgentLoop bob_registered) true],
     Serving)
  /\ threads (fst (main (Present (Some (PyList [PyDict alice; PyDict bob])))
                     registers_bob))
     = [EvThread (Recovery [alice; bob_registered]) true;
        EvThread (AgentLoop alice) true;
        EvThread (AgentLoop bob_registered) true].
Proof.
  split; [reflexivity |].
  destruct (main_starts_threads (PyList [PyDict alice; PyDict bob]) registers_bob
              [PyDict alice; PyDict bob]
              [EvRequest (register_request (PyStr "bob"))]
              (mkRegistration [PyDict alice; PyDict bob_registered]
                 [alice; bob_registered] true)
              eq_refl eq_refl) as [Hserve _].
  destruct Hserve as (_ & Hthreads & _); [discriminate |].
  exact Hthreads.
Defined.

(** C10: without the credentials file main writes the one-entry template to
    [AGENTS_FILE] and returns; it has sent no request and started no thread. *)
Theorem main_without_file :
  forall net,
    main Missing net = ([EvWrite AGENTS_FILE template], Returned)
    /\ template = PyList [PyDict [("name", PyStr "YourAgentName"); ("api_key", PyStr "")]]
    /\ requests (fst (main Missing net)) = []
    /\ threads (fst (main Missing net)) = []
    /\ snd (main Missing net) <> Serving.
Proof. intros net. repeat apply conj; try reflexivity. discriminate. Qed.

Lemma check_agent_updates agent h evs agent' keep upd :
  check_agent agent h = (evs, Ok (agent', keep, upd)) ->
  (upd = true <-> receives_key agent h).
Proof.
  unfold check_agent, receives_key.
  destruct agent as [| | | | | | d]; try discriminate.
  destruct (_ || _) eqn:Ep.
  { intros H; inversion H; subst. split; [discriminate |].
    intros (d' & Hd & Hp & _). inversion Hd; subst. congruence. }
  destruct (lacks_key _) as [[|] | e] eqn:El; try discriminate.
  - destruct (register_agent _ h) as [evs' new_key] eqn:Er.
    destruct (truthy new_key) eqn:Et;
      [destruct (dict_item _ _); [| discriminate] |]; intros H; inversion H; subst.
    + split; [| reflexivity]. intros _. exists d. rewrite Er. auto.
    + split; [discriminate |].
      intros (d' & Hd & _ & _ & Hk). inversion Hd; subst.
      rewrite Er in Hk. cbn in Hk. congruence.
  - intros H; inversion H; subst. split; [discriminate |].
    intros (d' & Hd & _ & Hl & _). inversion Hd; subst. congruence.
Qed.

Lemma registration_loop_updated elements :
  forall net evs r,
    registration_loop elements net = (evs, Ok r) ->
    (updated r = true
     <-> exists i agent, nth_error elements i = Some agent /\ receives_key agent (net i)).
Proof.
  induction elements as [| agent rest IH]; intros net evs r H.
  - inversion H; subst. split; [discriminate |].
    intros ([| i] & a & Hn & _); discriminate.
  - cbn [registration_loop] in H.
    destruct (check_agent agent (net O)) as [evs0 [[[agent' keep] upd] | e]] eqn:Ec;
      [| discriminate].
    destruct (registration_loop rest _) as [evs' [r' | e]] eqn:Er; [| discriminate].
    inversion H; subst. cbn [updated].
    pose proof (check_agent_updates _ _ _ _ _ _ Ec) as Hc.
    pose proof (IH _ _ _ Er) as Hr.
    rewrite orb_true_iff, Hc, Hr. split.
    + intros [Hk | (i & a & Hn & Hk)].
      * exists O, agent. auto.
      * exists (S i), a. auto.
    + intros ([| i] & a & Hn & Hk).
      * inversion Hn; subst. auto.
      * right. exists i, a. auto.
Qed.

Lemma only_requests_to_file tr : only_requests tr -> Forall to_agents_file tr.
Proof.
  unfold only_requests. induction tr as [| e tr IH]; [constructor |].
  cbn [forallb]. intros H. apply andb_prop in H as [He Htr].
  constructor; [| exact (IH Htr)]. destruct e; try discriminate He. exact I.
Qed.

Lemma start_threads_to_file valid : Forall to_agents_file (start_threads valid).
Proof.
  unfold start_threads. constructor; [exact I |].
  induction valid; constructor; [exact I | assumption].
Qed.

Lemma save_file_writes content r :
  Forall to_agents_file (save_file content r)
  /\ writes (save_file content r) = save_file content r.
Proof.
  unfold save_file. destruct (updated r); split;
    repeat constructor; reflexivity.
Qed.

Lemma main_writes content net elements evs r :
  (n <- len content ;; iter content) = Ok elements ->
  registration_loop elements net = (evs, Ok r) ->
  writes (fst (main (Present (Some content)) net)) = save_file content r.
Proof.
  intros H1 H2. rewrite (main_present _ _ _ _ _ H1 H2).
  assert (Hevs : writes evs = []).
  { pose proof (registration_loop_requests elements net) as H.
    rewrite H2 in H. now apply only_requests_quiet in H. }
  destruct (save_file_writes content r) as [_ Hs].
  destruct (valid_agents r) as [| a valid]; cbn [fst].
  - now rewrite writes_app, Hevs, Hs.
  - destruct (start_threads_quiet (a :: valid)) as [_ Ht].
    now rewrite !writes_app, Hevs, Hs, Ht, app_nil_r.
Qed.

Lemma main_to_file file net : Forall to_agents_file (fst (main file net)).
Proof.
  destruct file as [| [content |]]; [repeat constructor | | constructor].
  unfold main.
  destruct (n <- len content ;; iter content) as [elements | e]; [| constructor].
  pose proof (registration_loop_requests elements net) as Hreq.
  destruct (registration_loop elements net) as [evs [r | e]]; cbn [fst] in *.
  - apply only_requests_to_file in Hreq.
    fold (save_file content r).
    destruct (save_file_writes content r) as [Hs _].
    destruct (valid_agents r) as [| a valid]; cbn [fst];
      repeat (apply Forall_app; split); auto using start_threads_to_file.
  - now apply only_requests_to_file.
Qed.

Lemma main_writes_once file net :
  (List.length (writes (fst (main file net))) <= 1)%nat.
Proof.
  destruct file as [| [content |]]; [cbn; lia | | cbn; lia].
  destruct (n <- len content ;; iter content) as [elements | e] eqn:H1.
  - destruct (registration_loop elements net) as [evs [r | e]] eqn:H2.
    + rewrite (main_writes _ _ _ _ _ H1 H2). unfold save_file.
      destruct (updated r); cbn; lia.
    + unfold main. rewrite H1, H2. cbn [fst].
      pose proof (registration_loop_requests elements net) as H.
      rewrite H2 in H. cbn [fst] in H.
      apply only_requests_quiet in H as [-> _]. cbn; lia.
  - unfold main. rewrite H1. cbn; lia.
Qed.

Lemma main_crash_writes parsed net e :
  snd (main (Present parsed) net) = Crashed e ->
  writes (fst (main (Present parsed) net)) = [].
Proof.
  destruct parsed as [content |]; [| reflexivity].
  unfold main.
  destruct (n <- len content ;; iter content) as [elements | e']; [| reflexivity].
  pose proof (registration_loop_requests elements net) as Hreq.
  destruct (registration_loop elements net) as [evs [r | e']]; cbn [fst snd] in *.
  - destruct (valid_agents r); discriminate.
  - intros _. now apply only_requests_quiet in Hreq.
Qed.

Lemma iterations_writes api_key inputs : writes (fst (iterations api_key inputs)) = [].
Proof.
  induction inputs as [| inp rest IH]; [reflexivity |].
  cbn [iterations].
  destruct (iteration_trace api_key inp) as (tail & Htr & Htail).
  destruct (iteration api_key inp) as [evs [u | e]]; cbn [fst] in Htr; subst evs.
  - destruct (iterations api_key rest) as [evs' st]. cbn [fst] in *.
    rewrite !writes_app, IH. destruct Htail as [-> | (v & ->)]; reflexivity.
  - cbn [fst]. rewrite writes_app. destruct Htail as [-> | (v & ->)]; reflexivity.
Qed.

Lemma steps_writes agents : writes (steps agents) = [].
Proof. induction agents as [| a rest IH]; [reflexivity | exact IH]. Qed.

Lemma recovery_loop_writes agents nets : writes (fst (recovery_loop agents nets)) = [].
Proof.
  induction nets as [| net rest IH]; [reflexivity |].
  cbn [recovery_loop]. destruct (recovery_loop agents rest) as [evs st].
  cbn [fst] in *. unfold recovery_cycle.
  now rewrite poll_agents_eq, !writes_app, steps_writes, IH.
Qed.

(** C9: every write of main goes to [AGENTS_FILE] and there is at most one.
    Without the file it is the template; with the file and a registration
    phase that runs through, it is the agents list, written exactly when
    [updated] is set, which is exactly when some agent was registered and
    received a key; when main is left by an exception nothing is written.
    Neither loop and no registration call writes a file. *)
Theorem only_the_credentials_file :
  (forall file net,
      Forall to_agents_file (fst (main file net))
      /\ (List.length (writes (fst (main file net))) <= 1)%nat)
  /\ (forall net, writes (fst (main Missing net)) = [EvWrite AGENTS_FILE template])
  /\ (forall content net elements evs r,
         (n <- len content ;; iter content) = Ok elements ->
         registration_loop elements net = (evs, Ok r) ->
         writes (fst (main (Present (Some content)) net))
         = (if updated r
            then [EvWrite AGENTS_FILE (rebuilt content (agents_out r))]
            else [])
         /\ (updated r = true
             <-> exists i agent,
                   nth_error elements i = Some agent /\ receives_key agent (net i)))
  /\ (forall parsed net e,
         snd (main (Present parsed) net) = Crashed e ->
         writes (fst (main (Present parsed) net)) = [])
  /\ (forall agent_config inputs, writes (fst (run_agent_loop agent_config inputs)) = [])
  /\ (forall agents nets, writes (fst (recovery_loop agents nets)) = [])
  /\ (forall agent_name h, writes (fst (register_agent agent_name h)) = []).
Proof.
  repeat apply conj.
  - intros file net. split; [apply main_to_file | apply main_writes_once].
  - reflexivity.
  - intros content net elements evs r H1 H2. split.
    + apply (main_writes _ _ _ _ _ H1 H2).
    + apply (registration_loop_updated _ _ _ _ H2).
  - apply main_crash_writes.
  - intros agent_config inputs. apply iterations_writes.
  - apply recovery_loop_writes.
  - reflexivity.
Qed.

Lemma only_the_credentials_file_example :
  writes (fst (main (Present (Some (PyList [PyDict alice; PyDict bob]))) registers_bob))
  = [EvWrite AGENTS_FILE (PyList [PyDict alice; PyDict bob_registered])]
  /\ writes (fst (main (Present (Some (PyList [PyDict alice])))  registers_bob)) = [].
Proof.
  destruct only_the_credentials_file as (_ & _ & Hsave & _).
  split.
  - apply (Hsave (PyList [PyDict alice; PyDict bob]) registers_bob
             [PyDict alice; PyDict bob]
             [EvRequest (register_request (PyStr "bob"))]
             (mkRegistration [PyDict alice; PyDict bob_registered]
                [alice; bob_registered] true)
             eq_refl eq_refl).
  - apply (Hsave (PyList [PyDict alice]) registers_bob [PyDict alice] []
             (mkRegistration [PyDict alice] [alice] false) eq_refl eq_refl).
Defined.

(** ** register_agent: one call, the key or None *)

(** C8: register_agent sends one request whatever happens to it, a POST to
    the registration endpoint; on a 200 or 201 whose body is an object it
    returns the [api_key] of the body's [agent] object, and it returns [None]
    for every other status, when the call raises, and when the body cannot be
    read that way. *)
Theorem register_agent_one_shot :
  forall agent_name,
    (forall h, fst (register_agent agent_name h)
               = [EvRequest (register_request agent_name)])
    /\ req_verb (register_request agent_name) = POST
    /\ req_url (register_request agent_name) = [Lit BASE_URL; Lit "/agents/register"]
    /\ (forall status d a,
           status = 200 \/ status = 201 ->
           dict_get d "agent" (PyDict []) = PyDict a ->
           snd (register_agent agent_name (answer status (PyDict d)))
           = dict_get a "api_key" PyNone)
    /\ (forall r,
           status_code r <> 200 -> status_code r <> 201 ->
           snd (register_agent agent_name (Responded r)) = PyNone)
    /\ snd (register_agent agent_name Failed) = PyNone
    /\ (forall h,
           snd (register_agent agent_name h) = PyNone
           \/ exists status d a,
                h = answer status (PyDict d)
                /\ (status = 200 \/ status = 201)
                /\ dict_get d "agent" (PyDict []) = PyDict a
                /\ snd (register_agent agent_name h) = dict_get a "api_key" PyNone).
Proof.
  intros agent_name.
  assert (Hok : forall status d a,
             (status =? 200) || (status =? 201) = true ->
             dict_get d "agent" (PyDict []) = PyDict a ->
             snd (register_agent agent_name (answer status (PyDict d)))
             = dict_get a "api_key" PyNone).
  { intros status d a Hs Ha. unfold register_agent, answer, json_of.
    cbn [snd sent bind status_code body get]. rewrite Hs.
    cbn [bind]. rewrite Ha. reflexivity. }
  repeat apply conj; try reflexivity.
  - intros status d a Hs. apply Hok. destruct Hs; subst; reflexivity.
  - intros r H200 H201. unfold register_agent. cbn [snd sent bind].
    destruct (Z.eqb_spec (status_code r) 200); [contradiction |].
    destruct (Z.eqb_spec (status_code r) 201); [contradiction |]. reflexivity.
  - intros [| [status data]]; [left; reflexivity |].
    destruct ((status =? 200) || (status =? 201)) eqn:Hs.
    + destruct data as [[| | | | | | d] |];
        try (left; unfold register_agent, json_of;
             cbn [snd sent bind status_code body get]; rewrite Hs; reflexivity).
      destruct (dict_get d "agent" (PyDict [])) as [| | | | | | a] eqn:Ha;
        try (left; unfold register_agent, json_of;
             cbn [snd sent bind status_code body get]; rewrite Hs;
             cbn [bind]; rewrite Ha; reflexivity).
      right. exists status, d, a.
      pose proof (Hok _ _ _ Hs Ha) as Hkey.
      repeat apply conj; auto.
      apply orb_true_iff in Hs as [H | H]; apply Z.eqb_eq in H; auto.
    + left. unfold register_agent. cbn [snd sent bind status_code].
      rewrite Hs. reflexivity.
Qed.

Lemma register_agent_one_shot_example :
  snd (register_agent (PyStr "bob") (registers_bob O)) = PyStr "moltbook_sk_bob_0002"
  /\ snd (register_agent (PyStr "bob")
            (answer 409 (PyDict [("error", PyStr "name already taken")])))
     = PyNone.
Proof.
  destruct (register_agent_one_shot (PyStr "bob")) as (_ & _ & _ & Hkey & Hother & _).
  split.
  - apply (Hkey 201 [("agent", PyDict [("api_key", PyStr "moltbook_sk_bob_0002")])]
             [("api_key", PyStr "moltbook_sk_bob_0002")]);
      [right |]; reflexivity.
  - apply Hother; discriminate.
Defined.

(** ** Several agents side by side *)












(** ** What holds of the loops on every answer *)

Lemma next_sleep_outcome rs t draw o v :
  next_sleep rs t draw = Ok (o, v) -> o = outcome_of t.
Proof.
  unfold next_sleep, outcome_of. intros H.
  destruct (0 <? success_count t); [now inversion H |].
  destruct (got_429 t); [| now inversion H].
  bind_cases; reflexivity.
Qed.

(** The recovery loop is never left: it goes through every cycle it is
    given answers for, polling every agent in each. *)
Theorem recovery_loop_goes_on :
  forall agents nets,
    snd (recovery_loop agents nets) = Looping
    /\ requests (fst (recovery_loop agents nets))
       = List.concat (map (fun _ => map poll agents) nets).
Proof.
  intros agents nets. induction nets as [| net rest [IHs IHr]]; [split; reflexivity |].
  cbn [recovery_loop]. destruct (recovery_loop agents rest) as [evs st].
  cbn [fst snd map List.concat] in *. split; [exact IHs |].
  unfold recovery_cycle.
  rewrite poll_agents_eq, !requests_app, requests_steps, IHr. cbn [requests filter is_request].
  now rewrite app_nil_r.
Qed.

(** X6: on a body that is a JSON object whose [post], if any, is an object, the
    loop over the results selects success exactly for a 200 or 201 with a
    truthy [success] or [post], rate-limited exactly for a 429, and the
    unknown-error arm otherwise; the arm a turn takes is the one its tally
    selects; with no result the turn sleeps 60 seconds and goes on. *)
Theorem outcome_on_readable_bodies :
  (forall status d,
      post_readable d ->
      exists t,
        tally_all (mkTally 0 (PyInt (2 * 60)) false) [(status, PyDict d)] = Ok t
        /\ (outcome_of t = Success
            <-> (status = 200 \/ status = 201)
                /\ (truthy (dict_get d "success" PyNone) = true
                    \/ truthy (dict_get d "post" PyNone) = true))
        /\ (outcome_of t = RateLimited <-> status = 429))
  /\ (forall rs draw o v,
         attempt rs draw = Ok (o, v) ->
         exists t,
           tally_all (mkTally 0 (PyInt (2 * 60)) false) rs = Ok t /\ o = outcome_of t)
  /\ (forall api_key inp,
         snd (attack_thread api_key (workers_in inp O)) = [] ->
         exists evs, iteration api_key inp = (evs ++ [EvSleep (PyInt 60)], Ok tt)).
Proof.
  repeat apply conj.
  - intros status d Hp.
    destruct ((status =? 200) || (status =? 201)) eqn:Hs.
    + assert (Hst : status = 200 \/ status = 201).
      { apply orb_true_iff in Hs as [H | H]; apply Z.eqb_eq in H; auto. }
      assert (H429 : status <> 429) by (destruct Hst; subst; discriminate).
      destruct (truthy (dict_get d "success" PyNone)
                || truthy (dict_get d "post" PyNone)) eqn:Hhit.
      * apply orb_true_iff in Hhit.
        eexists. cbn [tally_all]. rewrite (tally_entry_hit _ _ _ Hs Hhit Hp).
        cbn [bind]. split; [reflexivity |]. split.
        -- split; auto.
        -- split; [discriminate | contradiction].
      * apply orb_false_iff in Hhit as [Hsucc Hpost].
        eexists. cbn [tally_all]. unfold tally_entry. rewrite Hs.
        cbn [get bind]. rewrite Hsucc. cbn [bind]. rewrite Hpost.
        destruct (Z.eqb_spec status 429); [contradiction |].
        split; [reflexivity |]. split.
        -- split; [discriminate |]. intros [_ [H | H]]; congruence.
        -- split; [discriminate | contradiction].
    + apply orb_false_iff in Hs as [H200 H201].
      apply Z.eqb_neq in H200, H201.
      destruct (Z.eqb_spec status 429) as [-> | Hn].
      * eexists. split; [reflexivity |]. split; split;
          try discriminate; try reflexivity.
        intros [[H | H] _]; discriminate.
      * eexists. cbn [tally_all]. unfold tally_entry.
        destruct (Z.eqb_spec status 200); [contradiction |].
        destruct (Z.eqb_spec status 201); [contradiction |].
        destruct (Z.eqb_spec status 429); [contradiction |].
        cbn [orb bind]. split; [reflexivity |]. split; split;
          try discriminate; try contradiction.
        intros [[H | H] _]; contradiction.
  - intros rs draw o v H. unfold attempt in H.
    destruct (tally_all _ rs) as [t | e]; [| discriminate].
    exists t. split; [reflexivity |]. exact (next_sleep_outcome _ _ _ _ _ H).
  - intros api_key inp Hnone. unfold iteration. rewrite run_workers_eq, Hnone.
    eexists. reflexivity.
Qed.

(** ** generate_nonce and the mint request *)

Lemma choice_in {A : Type} (dflt : A) (l : list A) (x : Z) :
  l <> [] -> In (choice dflt l x) l.
Proof.
  intros Hl. unfold choice. apply nth_In.
  assert (0 < Z.of_nat (List.length l)) by (destruct l; [contradiction | cbn; lia]).
  pose proof (Z.mod_pos_bound x (Z.of_nat (List.length l)) ltac:(assumption)).
  lia.
Qed.

Lemma length_string_of_list (l : list ascii) :
  String.length (string_of_list_ascii l) = List.length l.
Proof. induction l as [| c l IH]; cbn; congruence. Qed.

Lemma choices_spec {A : Type} (dflt : A) (population : list A) k draw :
  population <> [] ->
  List.length (choices dflt population k draw) = k
  /\ Forall (fun c => In c population) (choices dflt population k draw).
Proof.
  intros Hp. unfold choices. split.
  - now rewrite length_map, length_seq.
  - apply Forall_forall. intros c Hc. apply in_map_iff in Hc as (i & <- & _).
    now apply choice_in.
Qed.

(** X1: a nonce has exactly the requested length and consists of ASCII letters
    and digits, whatever the draws are. *)
Theorem nonce_is_alphanumeric :
  forall n draw,
    String.length (generate_nonce n draw) = n
    /\ Forall (fun c => In c alphabet) (list_ascii_of_string (generate_nonce n draw))
    /\ List.length alphabet = 62%nat.
Proof.
  intros n draw. unfold generate_nonce. fold alphabet.
  assert (Ha : alphabet <> []) by discriminate.
  destruct (choices_spec " "%char alphabet n draw Ha) as [Hlen Hall].
  repeat apply conj.
  - now rewrite length_string_of_list.
  - now rewrite list_ascii_of_string_of_list_ascii.
  - reflexivity.
Qed.

(** X2: every mint request carries one nonce of 8 characters in its title and at
    the end of its content, the content starts with the mint inscription and
    holds one of the seven fluff lines, whose update number lies in
    [1, 999]; the request is authorised by the agent's key and has no
    timeout. *)
Theorem mint_request_contents :
  forall api_key w,
    exists nonce fluff,
      nonce = generate_nonce 8 (nonce_draw w)
      /\ String.length nonce = 8%nat
      /\ In fluff (fluff_options (randint 1 999 (update_draw w)))
      /\ List.length (fluff_options (randint 1 999 (update_draw w))) = 7%nat
      /\ 1 <= randint 1 999 (update_draw w) <= 999
      /\ req_json (mint_request api_key w)
         = [("title", Plain (PyStr ("Mint CLAW " ++ nonce)%string));
            ("content",
             Plain (PyStr (mint_content ++ " " ++ fluff ++ " mbc20.xyz " ++ nonce)%string));
            ("submolt", Plain (PyStr "mbc-20"));
            ("is_draft", Plain (PyBool false))]
      /\ req_headers (mint_request api_key w)
         = [("Authorization", [Lit "Bearer "; Fmt api_key]);
            ("Content-Type", [Lit "application/json"])]
      /\ req_timeout (mint_request api_key w) = None.
Proof.
  intros api_key w.
  exists (generate_nonce 8 (nonce_draw w)),
    (choice "" (fluff_options (randint 1 999 (update_draw w))) (fluff_draw w)).
  repeat apply conj; try reflexivity.
  - apply choice_in. discriminate.
  - apply randint_range. lia.
  - apply randint_range. lia.
Qed.

(** ** Counting along the loops *)

Lemma sleeps_app tr1 tr2 : sleeps (tr1 ++ tr2) = sleeps tr1 ++ sleeps tr2.
Proof. apply filter_app. Qed.

(** A turn either sleeps after its request and goes on, or stops after its
    request. *)
Lemma iteration_cases api_key inp :
  let started :=
    [EvWorkerStart 0; EvRequest (mint_request api_key (workers_in inp O));
     EvWorkerJoin 0] in
  (exists v, iteration api_key inp = (started ++ [EvSleep v], Ok tt))
  \/ (exists e, iteration api_key inp = (started, Raise e)).
Proof.
  unfold iteration. rewrite run_workers_eq.
  destruct (attempt _ _) as [[o v] | e]; [| right; eauto].
  destruct (go_to_sleep o v) as [[] | e]; [left | right]; eauto.
Qed.

(** X3: the agent loop sends one request in every turn it starts.  While it
    lives it has slept once per request; when an exception has left it, the
    last request was not followed by a sleep. *)
Theorem agent_loop_requests_and_sleeps :
  forall agent_config inputs,
    (List.length (requests (fst (run_agent_loop agent_config inputs)))
     <= List.length inputs)%nat
    /\ (snd (run_agent_loop agent_config inputs) = Looping ->
        List.length (requests (fst (run_agent_loop agent_config inputs)))
        = List.length inputs
        /\ List.length (sleeps (fst (run_agent_loop agent_config inputs)))
           = List.length inputs)
    /\ (forall e,
           snd (run_agent_loop agent_config inputs) = Died e ->
           List.length (requests (fst (run_agent_loop agent_config inputs)))
           = S (List.length (sleeps (fst (run_agent_loop agent_config inputs))))).
Proof.
  intros agent_config inputs. unfold run_agent_loop.
  generalize (dict_get agent_config "api_key" PyNone). intros api_key.
  induction inputs as [| inp rest (IHle & IHlive & IHdead)].
  - repeat apply conj; [cbn; lia | intros _; split; reflexivity | discriminate].
  - cbn [iterations].
    destruct (iteration_cases api_key inp) as [(v & ->) | (e & ->)].
    + destruct (iterations api_key rest) as [evs st]. cbn [fst snd] in *.
      rewrite requests_app, sleeps_app, !length_app. cbn.
      repeat apply conj.
      * lia.
      * intros Hst. destruct (IHlive Hst). lia.
      * intros e Hst. rewrite (IHdead e Hst). lia.
    + cbn [fst snd]. repeat apply conj; [cbn; lia | discriminate | reflexivity].
Qed.

Lemma sleeps_steps agents : List.length (sleeps (steps agents)) = List.length agents.
Proof.
  induction agents as [| a rest IH]; [reflexivity |].
  change (sleeps (steps (a :: rest))) with (EvSleep (PyInt 10) :: sleeps (steps rest)).
  cbn [List.length]. now rewrite IH.
Qed.

(** X4: whatever the indexer answers, [k] cycles of the recovery loop over [n]
    agents leave the loop alive, having sent [k * n] index requests and
    slept [k * (300 + 10 * n)] seconds in [k * (n + 1)] sleeps. *)
Theorem recovery_loop_totals :
  forall agents nets,
    snd (recovery_loop agents nets) = Looping
    /\ List.length (requests (fst (recovery_loop agents nets)))
       = (List.length nets * List.length agents)%nat
    /\ List.length (sleeps (fst (recovery_loop agents nets)))
       = (List.length nets * S (List.length agents))%nat
    /\ slept (fst (recovery_loop agents nets))
       = Z.of_nat (List.length nets) * (300 + 10 * Z.of_nat (List.length agents)).
Proof.
  intros agents nets.
  induction nets as [| net rest (IHs & IHr & IHn & IHt)];
    [repeat apply conj; reflexivity |].
  cbn [recovery_loop]. destruct (recovery_loop agents rest) as [evs st].
  cbn [fst snd List.length] in *. unfold recovery_cycle. rewrite poll_agents_eq.
  repeat apply conj.
  - exact IHs.
  - rewrite !requests_app, !length_app, requests_steps, length_map, IHr. cbn. lia.
  - rewrite !sleeps_app, !length_app, sleeps_steps, IHn. cbn. lia.
  - rewrite !slept_app, slept_steps, IHt. cbn [slept]. lia.
Qed.

(** ** The answers a turn of run_agent_loop survives *)














(** ** The key check of main *)

Lemma of_nat_ltb n : (Z.of_nat n <? 10) = Nat.ltb n 10.
Proof.
  destruct (Z.ltb_spec (Z.of_nat n) 10), (Nat.ltb_spec n 10); try reflexivity; lia.
Qed.

(** X7: which values of [api_key] send an agent to registration: a string
    shorter than 10 characters (the comparison with ["key"] adds nothing), a
    list or object of fewer than 10 entries, null, false and zero.  A
    non-zero number or [true] has no [len]: the check raises TypeError, and
    so does main, before any request for that agent. *)
Theorem key_check :
  (forall s, lacks_key (PyStr s) = Ok (Nat.ltb (String.length s) 10))
  /\ lacks_key PyNone = Ok true
  /\ (forall n, lacks_key (PyInt n) = if n =? 0 then Ok true else Raise TypeError)
  /\ (forall b, lacks_key (PyBool b) = if b then Raise TypeError else Ok true)
  /\ (forall f, lacks_key (PyFloat f)
                = if PrimFloat.eqb f 0%float then Ok true else Raise TypeError)
  /\ (forall l, lacks_key (PyList l) = Ok (Nat.ltb (List.length l) 10))
  /\ (forall d, lacks_key (PyDict d) = Ok (Nat.ltb (List.length d) 10))
  /\ (forall d h e rest net,
         placeholder d = false ->
         lacks_key (dict_get d "api_key" PyNone) = Raise e ->
         check_agent (PyDict d) h = ([], Raise e)
         /\ registration_loop (PyDict d :: rest) net = ([], Raise e)).
Proof.
  repeat apply conj.
  - intros s. unfold lacks_key. cbn [truthy eq_str len].
    destruct (String.eqb_spec s "") as [-> | _]; [reflexivity |].
    cbn [negb]. destruct (String.eqb_spec s "key") as [-> | _]; [reflexivity |].
    cbn [bind]. now rewrite of_nat_ltb.
  - reflexivity.
  - intros n. unfold lacks_key. cbn. destruct (n =? 0); reflexivity.
  - intros []; reflexivity.
  - intros f. unfold lacks_key. cbn. destruct (PrimFloat.eqb f 0); reflexivity.
  - intros [| x l]; [reflexivity |]. unfold lacks_key.
    cbn [truthy negb eq_str len bind]. now rewrite of_nat_ltb.
  - intros [| x d]; [reflexivity |]. unfold lacks_key.
    cbn [truthy negb eq_str len bind]. now rewrite of_nat_ltb.
  - intros d h e rest net Hp Hl.
    assert (Hc : forall h', check_agent (PyDict d) h' = ([], Raise e)).
    { intros h'. unfold check_agent. fold (placeholder d). now rewrite Hp, Hl. }
    split; [apply Hc |]. cbn [registration_loop]. now rewrite Hc.
Qed.

Lemma key_check_example :
  registration_loop
    [PyDict [("name", PyStr "carol"); ("api_key", PyInt 12345)]; PyDict bob]
    registers_bob
  = ([], Raise TypeError).
Proof.
  destruct key_check as (_ & _ & _ & _ & _ & _ & _ & Hraise).
  apply (Hraise [("name", PyStr "carol"); ("api_key", PyInt 12345)]
           (registers_bob O) TypeError [PyDict bob] registers_bob);
    reflexivity.
Defined.

(** ** What the registration phase keeps and changes *)

Lemma dict_find_set_same d k v : dict_find (dict_set d k v) k = Some v.
Proof.
  induction d as [| [k' v'] d IH]; cbn.
  - now rewrite String.eqb_refl.
  - destruct (String.eqb k' k) eqn:E; cbn; now rewrite E.
Qed.

Lemma dict_find_set_other d k v key :
  key <> k -> dict_find (dict_set d k v) key = dict_find d key.
Proof.
  intros Hk. induction d as [| [k' v'] d IH]; cbn.
  - destruct (String.eqb_spec k key); [congruence | reflexivity].
  - destruct (String.eqb_spec k' k) as [-> | Hk']; cbn.
    + destruct (String.eqb_spec k key); [congruence | reflexivity].
    + destruct (String.eqb k' key); [reflexivity | exact IH].
Qed.

Lemma dict_get_set_same d k v dflt : dict_get (dict_set d k v) k dflt = v.
Proof. unfold dict_get. now rewrite dict_find_set_same. Qed.



(** The three ways the loop body ends without an exception. *)
Lemma check_agent_ok agent h evs agent' keep upd :
  check_agent agent h = (evs, Ok (agent', keep, upd)) ->
  exists d,
    agent = PyDict d
    /\ ((placeholder d = true /\ evs = [] /\ agent' = agent /\ keep = None /\ upd = false)
        \/ (placeholder d = false
            /\ lacks_key (dict_get d "api_key" PyNone) = Ok false
            /\ evs = [] /\ agent' = agent /\ keep = Some d /\ upd = false)
        \/ (placeholder d = false
            /\ lacks_key (dict_get d "api_key" PyNone) = Ok true
            /\ evs = [EvRequest (register_request (dict_get d "name" PyNone))]
            /\ let k := snd (register_agent (dict_get d "name" PyNone) h) in
               (truthy k = false /\ agent' = agent /\ keep = None /\ upd = false)
               \/ (truthy k = true
                   /\ agent' = PyDict (dict_set d "api_key" k)
                   /\ keep = Some (dict_set d "api_key" k) /\ upd = true))).
Proof.
  unfold check_agent. destruct agent as [| | | | | | d]; try discriminate.
  fold (placeholder d). intros H. exists d. split; [reflexivity |].
  destruct (placeholder d).
  { inversion H; subst. left. auto. }
  right. destruct (lacks_key _) as [[|] | e]; try discriminate.
  - right. repeat (split; [reflexivity |]).
    destruct (register_agent _ h) as [evs' k] eqn:Er.
    assert (Hevs : evs' = [EvRequest (register_request (dict_get d "name" PyNone))])
      by (unfold register_agent in Er; now inversion Er).
    cbn [snd]. destruct (truthy k).
    + destruct (dict_item _ _); [| discriminate]. inversion H; subst. auto 10.
    + inversion H; subst. auto 10.
  - left. inversion H; subst. auto 10.
Qed.

Lemma registration_loop_cons agent rest net evs r :
  registration_loop (agent :: rest) net = (evs, Ok r) ->
  exists evs0 agent' keep upd evs' r',
    check_agent agent (net O) = (evs0, Ok (agent', keep, upd))
    /\ registration_loop rest (fun i => net (S i)) = (evs', Ok r')
    /\ evs = evs0 ++ evs'
    /\ agents_out r = agent' :: agents_out r'
    /\ valid_agents r
       = (match keep with Some d => d :: valid_agents r' | None => valid_agents r' end)
    /\ updated r = upd || updated r'.
Proof.
  cbn [registration_loop].
  destruct (check_agent agent (net O)) as [evs0 [[[agent' keep] upd] | e]];
    [| discriminate].
  destruct (registration_loop rest _) as [evs' [r' | e]]; [| discriminate].
  intros H. inversion H; subst. cbn. eauto 12.
Qed.





Lemma check_agent_events agent h :
  fst (check_agent agent h) = []
  \/ exists d, agent = PyDict d
               /\ fst (check_agent agent h)
                  = [EvRequest (register_request (dict_get d "name" PyNone))].
Proof.
  unfold check_agent. destruct agent as [| | | | | | d]; try (left; reflexivity).
  destruct (_ || _); [left; reflexivity |].
  destruct (lacks_key _) as [[|] | e]; try (left; reflexivity).
  right. exists d. split; [reflexivity |].
  unfold register_agent. destruct (truthy _); [| reflexivity].
  destruct (dict_item _ _); reflexivity.
Qed.

Lemma registration_loop_calls elements :
  forall net,
    Forall registration_call (fst (registration_loop elements net))
    /\ (List.length (fst (registration_loop elements net)) <= List.length elements)%nat.
Proof.
  induction elements as [| agent rest IH]; intros net; [split; [constructor | cbn; lia] |].
  cbn [registration_loop].
  destruct (IH (fun i => net (S i))) as [IHc IHl].
  assert (Hhead : Forall registration_call (fst (check_agent agent (net O)))
                  /\ (List.length (fst (check_agent agent (net O))) <= 1)%nat).
  { destruct (check_agent_events agent (net O)) as [-> | (d & _ & ->)].
    - split; [constructor | cbn; lia].
    - split; [| cbn; lia]. constructor; [| constructor]. now eexists. }
  destruct Hhead as [Hc Hl].
  destruct (check_agent agent (net O)) as [evs [[[agent' keep] upd] | e]];
    cbn [fst] in *.
  - destruct (registration_loop rest _) as [evs' [r' | e]]; cbn [fst] in *;
      (split; [now apply Forall_app | rewrite length_app; cbn; lia]).
  - split; [exact Hc | cbn; lia].
Qed.

Lemma only_requests_all tr : only_requests tr -> requests tr = tr.
Proof.
  unfold only_requests. induction tr as [| e tr IH]; [reflexivity |].
  cbn [forallb]. intros H. apply andb_prop in H as [He Htr].
  cbn. rewrite He. f_equal. exact (IH Htr).
Qed.

Lemma main_requests_eq content net elements :
  (n <- len content ;; iter content) = Ok elements ->
  requests (fst (main (Present (Some content)) net))
  = fst (registration_loop elements net).
Proof.
  intros H1. unfold main. rewrite H1.
  pose proof (registration_loop_requests elements net) as Hreq.
  destruct (registration_loop elements net) as [evs [r | e]]; cbn [fst] in *.
  - assert (Hsave : requests (if updated r
                              then [EvWrite AGENTS_FILE (rebuilt content (agents_out r))]
                              else []) = [])
      by (destruct (updated r); reflexivity).
    assert (Hstart : forall valid, requests (start_threads valid) = []).
    { intros valid. unfold start_threads. cbn.
      induction valid as [| a valid IH]; [reflexivity | exact IH]. }
    destruct (valid_agents r) as [| a valid]; cbn [fst];
      rewrite ?requests_app, Hsave, ?Hstart, ?app_nil_r;
      now apply only_requests_all.
  - now apply only_requests_all.
Qed.

Lemma registration_loop_settled elements :
  forall net,
    Forall settled elements ->
    exists valid,
      registration_loop elements net = ([], Ok (mkRegistration elements valid false)).
Proof.
  induction elements as [| agent rest IH]; intros net Hall.
  - exists []. reflexivity.
  - inversion Hall as [| ? ? (d & -> & Hd) Hrest]; subst.
    destruct (IH (fun i => net (S i)) Hrest) as (valid & Hr).
    cbn [registration_loop]. unfold check_agent. fold (placeholder d).
    destruct (placeholder d) eqn:Hp.
    + rewrite Hr. eexists. reflexivity.
    + destruct Hd as [Hd | Hd]; [discriminate |].
      rewrite Hd, Hr. eexists. reflexivity.
Qed.

Lemma registration_loop_placeholders elements :
  forall net,
    Forall (fun agent => exists d, agent = PyDict d /\ placeholder d = true) elements ->
    registration_loop elements net = ([], Ok (mkRegistration elements [] false)).
Proof.
  induction elements as [| agent rest IH]; intros net Hall; [reflexivity |].
  inversion Hall as [| ? ? (d & -> & Hd) Hrest]; subst.
  cbn [registration_loop]. unfold check_agent. fold (placeholder d).
  now rewrite Hd, (IH _ Hrest).
Qed.

(** X9: the only requests main itself sends are registration calls, at most one
    per entry of the file.  When every entry is a placeholder or has a key
    that passes the check, main sends nothing and writes nothing; when every
    entry is a placeholder it returns without any effect. *)
Theorem main_requests :
  (forall file net, Forall registration_call (requests (fst (main file net))))
  /\ (forall content net elements,
         (n <- len content ;; iter content) = Ok elements ->
         (List.length (requests (fst (main (Present (Some content)) net)))
          <= List.length elements)%nat)
  /\ (forall content net elements,
         (n <- len content ;; iter content) = Ok elements ->
         Forall settled elements ->
         requests (fst (main (Present (Some content)) net)) = []
         /\ writes (fst (main (Present (Some content)) net)) = [])
  /\ (forall content net elements,
         (n <- len content ;; iter content) = Ok elements ->
         Forall (fun agent => exists d, agent = PyDict d /\ placeholder d = true)
           elements ->
         main (Present (Some content)) net = ([], Returned)).
Proof.
  repeat apply conj.
  - intros [| [content |]] net; [constructor | | constructor].
    destruct (n <- len content ;; iter content) as [elements | e] eqn:H1.
    + rewrite (main_requests_eq _ _ _ H1). apply registration_loop_calls.
    + unfold main. rewrite H1. constructor.
  - intros content net elements H1. rewrite (main_requests_eq _ _ _ H1).
    apply registration_loop_calls.
  - intros content net elements H1 Hall.
    destruct (registration_loop_settled elements net Hall) as (valid & Hr).
    split.
    + rewrite (main_requests_eq _ _ _ H1), Hr. reflexivity.
    + rewrite (main_writes _ _ _ _ _ H1 Hr). reflexivity.
  - intros content net elements H1 Hall. unfold main.
    now rewrite H1, (registration_loop_placeholders _ net Hall).
Qed.

(** The template that main writes when the file is missing is, read back, a
    file of placeholders; a file with only alice sends and writes nothing. *)
Lemma main_requests_example :
  main (Present (Some template)) registers_bob = ([], Returned)
  /\ requests (fst (main (Present (Some (PyList [PyDict alice]))) registers_bob)) = [].
Proof.
  destruct main_requests as (_ & _ & Hsettled & Hplace).
  split.
  - apply (Hplace template registers_bob
             [PyDict [("name", PyStr "YourAgentName"); ("api_key", PyStr "")]]
             eq_refl).
    repeat constructor. eexists. split; reflexivity.
  - apply (Hsettled (PyList [PyDict alice]) registers_bob [PyDict alice] eq_refl).
    repeat constructor. exists alice. split; [reflexivity | right; reflexivity].
Defined.

(** ** A file main cannot use *)

Lemma registration_loop_malformed elements :
  forall net,
    existsb (fun agent => negb (is_dict agent)) elements = true ->
    exists e, snd (registration_loop elements net) = Raise e.
Proof.
  induction elements as [| agent rest IH]; intros net H; [discriminate |].
  cbn [existsb] in H. cbn [registration_loop].
  destruct (check_agent agent (net O)) as [evs [[[agent' keep] upd] | e]] eqn:Hc;
    [| exists e; reflexivity].
  apply check_agent_ok in Hc as (d & -> & _). cbn [is_dict negb orb] in H.
  destruct (IH (fun i => net (S i)) H) as (e & He).
  destruct (registration_loop rest _) as [evs' [r' | e']]; cbn [snd] in *;
    [discriminate | exists e'; reflexivity].
Qed.

(** X10: when one entry of the file, wherever it stands, is not a JSON object,
    main is left by an exception: no thread is started and nothing is
    written, also not the keys that registrations of earlier entries have
    returned.  The same holds when the file is not JSON or cannot be
    iterated, then before any request. *)
Theorem malformed_entry_stops_main :
  (forall content net elements,
      (n <- len content ;; iter content) = Ok elements ->
      existsb (fun agent => negb (is_dict agent)) elements = true ->
      exists e,
        snd (main (Present (Some content)) net) = Crashed e
        /\ writes (fst (main (Present (Some content)) net)) = []
        /\ threads (fst (main (Present (Some content)) net)) = [])
  /\ (forall content net e,
         (n <- len content ;; iter content) = Raise e ->
         main (Present (Some content)) net = ([], Crashed e))
  /\ (forall net, main (Present None) net = ([], Crashed ValueError))
  /\ (forall content,
         (n <- len content ;; iter content)
         = match content with
           | PyList l => Ok l
           | PyDict d => Ok (map (fun kv => PyStr (fst kv)) d)
           | PyStr s => Ok (map (fun c => PyStr (String c "")) (list_ascii_of_string s))
           | _ => Raise TypeError
           end).
Proof.
  repeat apply conj.
  - intros content net elements H1 Hbad.
    destruct (registration_loop_malformed elements net Hbad) as (e & He).
    assert (Hmain : main (Present (Some content)) net
                    = (fst (registration_loop elements net), Crashed e)).
    { unfold main. rewrite H1.
      destruct (registration_loop elements net) as [evs [r | e']]; cbn [snd] in He;
        [discriminate | now inversion He]. }
    exists e. rewrite Hmain. cbn [fst snd].
    pose proof (registration_loop_requests elements net) as Hreq.
    apply only_requests_quiet in Hreq as [Hw Ht]. auto.
  - intros content net e H1. unfold main. now rewrite H1.
  - reflexivity.
  - intros []; reflexivity.
Qed.

Lemma malformed_entry_stops_main_example :
  main (Present (Some (PyList [PyDict bob; PyStr "alice"]))) registers_bob
  = ([EvRequest (register_request (PyStr "bob"))], Crashed AttributeError)
  /\ exists e,
       snd (main (Present (Some (PyList [PyDict bob; PyStr "alice"]))) registers_bob)
       = Crashed e
       /\ writes (fst (main (Present (Some (PyList [PyDict bob; PyStr "alice"])))
                         registers_bob)) = []
       /\ threads (fst (main (Present (Some (PyList [PyDict bob; PyStr "alice"])))
                          registers_bob)) = [].
Proof.
  split; [reflexivity |].
  destruct malformed_entry_stops_main as (Hbad & _).
  apply (Hbad (PyList [PyDict bob; PyStr "alice"]) registers_bob
           [PyDict bob; PyStr "alice"]); reflexivity.
Defined.

(** ** The keys that registration returns *)

Lemma check_agent_receives d h evs agent' keep upd :
  check_agent (PyDict d) h = (evs, Ok (agent', keep, upd)) ->
  receives_key (PyDict d) h ->
  let k := snd (register_agent (dict_get d "name" PyNone) h) in
  agent' = PyDict (dict_set d "api_key" k) /\ keep = Some (dict_set d "api_key" k).
Proof.
  intros Hc (d' & Hd & Hp & Hl & Hk). inversion Hd; subst d'.
  apply check_agent_ok in Hc as (d' & Hd' & Hcases). inversion Hd'; subst d'.
  fold (placeholder d) in Hp.
  destruct Hcases as [(Hp' & _) | [(_ & Hl' & _) | (_ & _ & _ & Hreg)]];
    [congruence | congruence |].
  cbn zeta in Hreg. destruct Hreg as [(Hk' & _) | (_ & -> & -> & _)];
    [congruence | split; reflexivity].
Qed.

Lemma check_agent_passes agent h evs agent' keep upd :
  check_agent agent h = (evs, Ok (agent', keep, upd)) ->
  ~ receives_key agent h -> agent' = agent.
Proof.
  intros Hc Hno. apply check_agent_ok in Hc as (d & -> & Hcases).
  destruct Hcases as [(_ & _ & -> & _) | [(_ & _ & _ & -> & _) | (Hp & Hl & _ & Hreg)]];
    try reflexivity.
  cbn zeta in Hreg. destruct Hreg as [(_ & -> & _) | (Hk & _)]; [reflexivity |].
  exfalso. apply Hno. exists d. auto.
Qed.

(** X11: when the registration phase runs through, the list keeps its length; an
    agent that was registered and received a key has exactly that key under
    [api_key], in the list that is saved and among the valid agents, with
    all its other fields as they were; every other entry is unchanged. *)
Theorem registered_key_is_stored elements :
  forall net evs r,
    registration_loop elements net = (evs, Ok r) ->
    List.length (agents_out r) = List.length elements
    /\ (forall i d,
           nth_error elements i = Some (PyDict d) ->
           receives_key (PyDict d) (net i) ->
           let k := snd (register_agent (dict_get d "name" PyNone) (net i)) in
           nth_error (agents_out r) i = Some (PyDict (dict_set d "api_key" k))
           /\ In (dict_set d "api_key" k) (valid_agents r)
           /\ dict_get (dict_set d "api_key" k) "api_key" PyNone = k
           /\ (forall key, key <> "api_key" ->
                           dict_find (dict_set d "api_key" k) key = dict_find d key))
    /\ (forall i agent,
           nth_error elements i = Some agent ->
           ~ receives_key agent (net i) ->
           nth_error (agents_out r) i = Some agent).
Proof.
  induction elements as [| agent rest IH]; intros net evs r H.
  - inversion H; subst. repeat apply conj; [reflexivity | |];
      intros [| i]; discriminate.
  - apply registration_loop_cons in H
      as (evs0 & agent' & keep & upd & evs' & r' & Hc & Hr & _ & Ho & Hv & _).
    destruct (IH _ _ _ Hr) as (IHlen & IHkey & IHsame).
    rewrite Ho, Hv. repeat apply conj.
    + cbn [List.length]. now rewrite IHlen.
    + intros [| i] d Hn Hk k.
      * inversion Hn; subst agent. subst k.
        destruct (check_agent_receives _ _ _ _ _ _ Hc Hk) as [-> ->].
        repeat apply conj.
        -- reflexivity.
        -- left. reflexivity.
        -- apply dict_get_set_same.
        -- intros key Hkey. now apply dict_find_set_other.
      * cbn [nth_error] in Hn |- *.
        destruct (IHkey i d Hn Hk) as (H1 & H2 & H3 & H4).
        repeat apply conj; try assumption.
        destruct keep; [right |]; exact H2.
    + intros [| i] a Hn Hno.
      * inversion Hn; subst a. cbn [nth_error].
        now rewrite (check_agent_passes _ _ _ _ _ _ Hc Hno).
      * cbn [nth_error] in Hn |- *. exact (IHsame i a Hn Hno).
Qed.

Lemma registered_key_is_stored_example :
  nth_error [PyDict alice; PyDict bob_registered] 1 = Some (PyDict bob_registered)
  /\ In bob_registered [alice; bob_registered]
  /\ dict_get bob_registered "api_key" PyNone = PyStr "moltbook_sk_bob_0002".
Proof.
  destruct (registered_key_is_stored [PyDict alice; PyDict bob] registers_bob
              [EvRequest (register_request (PyStr "bob"))]
              (mkRegistration [PyDict alice; PyDict bob_registered]
                 [alice; bob_registered] true)
              eq_refl) as (_ & Hkey & _).
  destruct (Hkey 1%nat bob eq_refl) as (H1 & H2 & H3 & _).
  - exists bob. repeat apply conj; reflexivity.
  - repeat apply conj; [exact H1 | exact H2 | exact H3].
Defined.

(** ** Several results in one turn *)

Lemma tally_all_readable (rs : list (Z * dict)) :
  Forall (fun entry => post_readable (snd entry)) rs ->
  forall t,
    exists t',
      tally_all t (map (fun entry => (fst entry, PyDict (snd entry))) rs) = Ok t'
      /\ success_count t'
         = success_count t
           + Z.of_nat (List.length (filter (fun entry => is_success (fst entry) (snd entry)) rs))
      /\ got_429 t' = got_429 t || existsb (fun entry => fst entry =? 429) rs.
Proof.
  induction 1 as [| [status d] rs Hp _ IH]; intros t.
  - exists t. cbn. rewrite orb_false_r. repeat split; lia.
  - cbn [map tally_all fst snd filter existsb]. unfold is_success at 1.
    destruct ((status =? 200) || (status =? 201)) eqn:Hs.
    + assert (H429 : (status =? 429) = false).
      { apply orb_true_iff in Hs as [H | H]; apply Z.eqb_eq in H; subst; reflexivity. }
      rewrite H429. cbn [andb orb].
      destruct (truthy (dict_get d "success" PyNone)
                || truthy (dict_get d "post" PyNone)) eqn:Hhit.
      * rewrite (tally_entry_hit _ _ _ Hs (proj1 (orb_true_iff _ _) Hhit) Hp).
        cbn [bind].
        destruct (IH (mkTally (success_count t + 1) (retry_minutes t) (got_429 t)))
          as (t' & Ht & Hc & Hg).
        exists t'. cbn [success_count got_429 List.length] in *.
        repeat split; [exact Ht | lia | exact Hg].
      * apply orb_false_iff in Hhit as [Hsucc Hpost].
        unfold tally_entry. rewrite Hs. cbn [get bind]. rewrite Hsucc.
        cbn [bind]. rewrite Hpost, H429.
        destruct (IH t) as (t' & Ht & Hc & Hg). exists t'. auto.
    + cbn [andb]. unfold tally_entry. rewrite Hs. cbn [bind get].
      destruct (status =? 429).
      * destruct (IH (mkTally (success_count t)
                        (if truthy (dict_get d "retry_after_minutes" PyNone)
                         then dict_get d "retry_after_minutes" PyNone
                         else retry_minutes t) true))
          as (t' & Ht & Hc & Hg).
        exists t'. cbn [success_count got_429] in *.
        repeat split; [exact Ht | exact Hc |]. now rewrite Hg, orb_true_r.
      * destruct (IH t) as (t' & Ht & Hc & Hg). exists t'. auto.
Qed.

(** X12: over any number of results whose bodies are objects with a readable
    post, the loop counts the successes and notes whether a 429 occurred;
    one success makes the turn a success, after which it sleeps two hours
    and one to five minutes whatever the other results were. *)
Theorem success_outweighs_rate_limit :
  forall (rs : list (Z * dict)) draw,
    Forall (fun entry => post_readable (snd entry)) rs ->
    let results := map (fun entry => (fst entry, PyDict (snd entry))) rs in
    (exists t,
        tally_all (mkTally 0 (PyInt (2 * 60)) false) results = Ok t
        /\ success_count t
           = Z.of_nat (List.length
                         (filter (fun entry => is_success (fst entry) (snd entry)) rs))
        /\ got_429 t = existsb (fun entry => fst entry =? 429) rs)
    /\ (existsb (fun entry => is_success (fst entry) (snd entry)) rs = true ->
        attempt results draw = Ok (Success, PyInt (7200 + randint 60 300 draw))).
Proof.
  intros rs draw Hall results.
  destruct (tally_all_readable rs Hall (mkTally 0 (PyInt (2 * 60)) false))
    as (t & Ht & Hc & Hg).
  cbn [success_count got_429 orb] in Hc, Hg. split.
  - exists t. repeat split; assumption.
  - intros Hex. unfold attempt. fold results in Ht. rewrite Ht. cbn [bind].
    unfold next_sleep.
    assert (Hpos : 0 < success_count t).
    { rewrite Hc. apply existsb_exists in Hex as (entry & Hin & He).
      assert (Hf : In entry (filter (fun entry => is_success (fst entry) (snd entry)) rs))
        by (apply filter_In; auto).
      destruct (filter _ rs); [destruct Hf | cbn; lia]. }
    destruct (Z.ltb_spec 0 (success_count t)); [reflexivity | lia].
Qed.

Lemma success_outweighs_rate_limit_example :
  attempt [(429, PyDict [("retry_after_minutes", PyInt 30)]);
           (201, PyDict [("post", PyDict [("id", PyInt 7)])])] 0
  = Ok (Success, PyInt 7260).
Proof.
  destruct (success_outweighs_rate_limit
              [(429, [("retry_after_minutes", PyInt 30)]);
               (201, [("post", PyDict [("id", PyInt 7)])])] 0) as [_ Hwin].
  - repeat constructor; cbn [snd]; eexists; reflexivity.
  - apply Hwin. reflexivity.
Defined.
